(** * debug.py: resolving a dotted path to a class, and reporting what happened

    The script under [src/debug.py] prints a three line header, then, inside
    one [try] statement, splits a dotted path at its last dot, imports the
    module part, reads the attribute named by the last segment and prints a
    report.  Three [except] clauses turn failures into printed diagnostics.

    The embedding below follows the script statement by statement.  The
    Python run time is the script's collaborator: [importlib.import_module],
    [sys.executable], [sys.path] and [repr] are taken from a [Host]; module
    attribute access, [dir], [str.rsplit], tuple unpacking, name lookup and
    the dispatch of [except] clauses are written out.

    Scope of the model: a loaded module is a plain module object (a
    namespace and what it has from its type as of CPython 3.11, without
    [__getattr__] or [__dir__] hooks); [print] and
    [str(e)] do not fail; strings are their UTF-8 bytes, among which the
    byte of ["."] only ever stands for a dot.  What the host itself writes
    to standard output while it loads a module belongs to the host state;
    the trace of a run records what the script prints and requests. *)

From Stdlib Require Import String Ascii List Lia.
From stdpp Require Import base decidable option list strings pretty gmap sorting.
Import ListNotations.

Local Open Scope string_scope.
Local Open Scope list_scope.

(** ** Python values the script handles *)

(** [sys.executable], module attributes and the class object are only ever
    formatted into a line of text; [VObj] stands for any object whose
    [str()] is the given text (a class, a function, a submodule...). *)
Inductive PyVal :=
  | VNone
  | VStr (s : string)
  | VObj (text : string).

#[global] Instance PyVal_eq_dec : EqDecision PyVal.
Proof. solve_decision. Defined.

(** [format(v, '')] as an f-string field applies it. *)
Definition py_str (v : PyVal) : string :=
  match v with
  | VNone => "None"
  | VStr s => s
  | VObj text => text
  end.

(** ** Exceptions *)

(** The part of the built-in exception hierarchy that the three [except]
    clauses tell apart, and single-inheritance classes defined by the target
    code. *)
Inductive ExcClass :=
  | BaseException
  | SystemExit
  | KeyboardInterrupt
  | Exception
  | ImportError
  | ModuleNotFoundError
  | AttributeError
  | NameError
  | ValueError
  | TypeError
  | SyntaxError
  | RuntimeError
  | RecursionError
  | UserDefined (name : string) (base : ExcClass).

#[global] Instance ExcClass_eq_dec : EqDecision ExcClass.
Proof. solve_decision. Defined.

(** The method resolution order of a class: itself, then its bases up to
    [BaseException]. *)
Fixpoint mro (c : ExcClass) : list ExcClass :=
  match c with
  | BaseException => [BaseException]
  | SystemExit => [SystemExit; BaseException]
  | KeyboardInterrupt => [KeyboardInterrupt; BaseException]
  | Exception => [Exception; BaseException]
  | ImportError => [ImportError; Exception; BaseException]
  | ModuleNotFoundError =>
      [ModuleNotFoundError; ImportError; Exception; BaseException]
  | AttributeError => [AttributeError; Exception; BaseException]
  | NameError => [NameError; Exception; BaseException]
  | ValueError => [ValueError; Exception; BaseException]
  | TypeError => [TypeError; Exception; BaseException]
  | SyntaxError => [SyntaxError; Exception; BaseException]
  | RuntimeError => [RuntimeError; Exception; BaseException]
  | RecursionError => [RecursionError; RuntimeError; Exception; BaseException]
  | UserDefined _ base => c :: mro base
  end.

Definition issubclass (c d : ExcClass) : bool := bool_decide (d ∈ mro c).

(** A raised exception: its class and the text [str(e)] gives. *)
Record PyExc := mkExc { exc_class : ExcClass; exc_text : string }.

#[global] Instance PyExc_eq_dec : EqDecision PyExc.
Proof. solve_decision. Defined.

Definition isinstance (e : PyExc) (c : ExcClass) : bool :=
  issubclass (exc_class e) c.
Arguments isinstance : simpl never.

(** ** Strings: [str.rsplit] with a one character separator *)

(** [rsplit_rev sep maxsplit rest cur]: [rest] is the part of the string not
    yet scanned, last character first; [cur] is the piece being collected
    to the right of it.  As in CPython the scan runs from the right end
    and stops splitting once [maxsplit] separators have been used; what
    remains becomes the first piece. *)
Fixpoint rsplit_rev (sep : ascii) (maxsplit : nat)
    (rest : list ascii) (cur : list ascii) : list (list ascii) :=
  match rest with
  | [] => [cur]
  | c :: rest' =>
      match maxsplit with
      | 0 => [rev rest ++ cur]
      | S k =>
          if Ascii.eqb c sep
          then rsplit_rev sep k rest' [] ++ [cur]
          else rsplit_rev sep maxsplit rest' (c :: cur)
      end
  end.

(** [s.rsplit(sep, maxsplit)] for a separator of length one. *)
Definition rsplit (sep : ascii) (maxsplit : nat) (s : string) : list string :=
  map string_of_list_ascii
    (rsplit_rev sep maxsplit (rev (list_ascii_of_string s)) []).

Definition dot : ascii := "."%char.

(** [a, b = xs]: unpacking a list into exactly two names. *)
Definition unpack2 (xs : list string) : (string * string) + PyExc :=
  match xs with
  | [a; b] => inl (a, b)
  | [] | [_] =>
      inr (mkExc ValueError
             ("not enough values to unpack (expected 2, got "
              +:+ pretty (length xs) +:+ ")"))
  | _ => inr (mkExc ValueError "too many values to unpack (expected 2)")
  end.

(** ** Module objects *)

(** A loaded module is its namespace, [__dict__]; [__name__], [__file__]
    and the module's members are entries of it.  Built-in modules such as
    [sys] have no [__file__] entry. *)
Record PyModule := mkModule { mod_dict : gmap string PyVal }.

(** What every module object has from its type, [types.ModuleType], and
    from [object] (CPython 3.11): three data descriptors, which are looked
    up before the namespace, and the methods and the doc string, which are
    looked up after it.  The type has no [__file__] and no [__name__]. *)
Definition module_type_descriptors : list string :=
  [ "__annotations__"; "__class__"; "__dict__" ].

Definition module_type_inherited : list string :=
  [ "__delattr__"; "__dir__"; "__doc__"; "__eq__"; "__format__"; "__ge__";
    "__getattribute__"; "__getstate__"; "__gt__"; "__hash__"; "__init__";
    "__init_subclass__"; "__le__"; "__lt__"; "__ne__"; "__new__";
    "__reduce__"; "__reduce_ex__"; "__repr__"; "__setattr__"; "__sizeof__";
    "__str__"; "__subclasshook__" ].

(** The value of an attribute that comes from the type: a bound method, a
    method wrapper, the namespace itself.  Its text depends on the address
    of the object, and no statement of the script formats one; the
    attribute name stands for it. *)
Definition inherited (attr : string) : PyVal :=
  VObj ("<" +:+ attr +:+ " of module object>").

(** Attribute access on a module, [m.attr] and [getattr(m, attr)] alike:
    the data descriptors of the type first ([__annotations__] gives the
    entry of the namespace, or a new empty dict), then the namespace, then
    the other attributes of the type; a miss raises [AttributeError], with
    the text CPython gives it. *)
Definition module_getattr (m : PyModule) (attr : string) : PyVal + PyExc :=
  if String.eqb attr "__class__" then inl (VObj "<class 'module'>")
  else if String.eqb attr "__dict__" then inl (inherited attr)
  else
    match mod_dict m !! attr with
    | Some v => inl v
    | None =>
        if String.eqb attr "__annotations__" then inl (VObj "{}")
        else if bool_decide (attr ∈ module_type_inherited)
        then inl (inherited attr)
        else
          inr (mkExc AttributeError
                 match mod_dict m !! "__name__" with
                 | Some (VStr n) =>
                     "module '" +:+ n +:+ "' has no attribute '" +:+ attr
                     +:+ "'"
                 | _ => "module has no attribute '" +:+ attr +:+ "'"
                 end)
    end.

(** The module object after the access: reading [__annotations__] on a
    module that has none stores the new empty dict in its namespace; no
    other access changes the module. *)
Definition module_touched (m : PyModule) (attr : string) : PyModule :=
  if String.eqb attr "__annotations__" then
    match mod_dict m !! attr with
    | Some _ => m
    | None => mkModule (<[attr := VObj "{}"]> (mod_dict m))
    end
  else m.
Arguments module_getattr : simpl never.
Arguments module_touched : simpl never.

Definition str_le (a b : string) : Prop := String.leb a b.

(** [dir(m)]: the names bound in the module, sorted. *)
Definition dir (m : PyModule) : list string :=
  merge_sort str_le (map_to_list (mod_dict m)).*1.

(** ** The host run time *)

(** What the script asks of the interpreter it runs in.  [E] is the state
    the host owns: loaded modules, files, environment, whatever loading a
    module may touch. *)
Record Host (E : Type) := mkHost {
  sys_executable : E -> PyVal;
  sys_path : E -> list string;
  import_module : string -> E -> (PyModule + PyExc) * E;
  repr_str : string -> string
}.
Arguments sys_executable {E} _ _.
Arguments sys_path {E} _ _.
Arguments import_module {E} _ _ _.
Arguments repr_str {E} _ _.

(** [repr] of a list of [str]. *)
Definition repr_list {E} (host : Host E) (xs : list string) : string :=
  "[" +:+ String.concat ", " (map (repr_str host) xs) +:+ "]".

(** ** Execution state *)

(** The names the script binds.  [TARGET] is the run's input; the others
    are unbound until their assignment is reached.  ([mod] is a keyword
    here, hence [mod_].) *)
Record Namespace := mkNs {
  module_name : option string;
  class_name : option string;
  mod_ : option PyModule;
  cls : option PyVal
}.

Definition no_names : Namespace := mkNs None None None None.

(** What a run does, in order: [print] calls, with the text printed, and
    requests made to the host or to the loaded module, with whether they
    returned ([true]) or raised ([false]). *)
Inductive Event :=
  | Print (text : string)
  | ImportCall (name : string) (ok : bool)
  | AttrRead (attr : string) (ok : bool)
  | GetattrCall (attr : string) (ok : bool)
  | DirCall.

#[global] Instance Event_eq_dec : EqDecision Event.
Proof. solve_decision. Defined.

Record State (E : Type) := mkState {
  names : Namespace;
  trace : list Event;
  env : E
}.
Arguments mkState {E} _ _ _.
Arguments names {E} _.
Arguments trace {E} _.
Arguments env {E} _.

Inductive Outcome (A : Type) :=
  | Returned (a : A)
  | Raised (e : PyExc).
Arguments Returned {A} _.
Arguments Raised {A} _.

(** A statement or expression: from a state to its value or the exception
    it raises, and the state it leaves.  What was printed before an
    exception stays printed. *)
Definition M (E A : Type) : Type := State E -> Outcome A * State E.

#[global] Instance M_ret {E} : MRet (M E) := fun A a s => (Returned a, s).

#[global] Instance M_bind {E} : MBind (M E) := fun A B f c s =>
  match c s with
  | (Returned a, s') => f a s'
  | (Raised e, s') => (Raised e, s')
  end.

Definition raise {E A} (e : PyExc) : M E A := fun s => (Raised e, s).

Definition emit {E} (ev : Event) : M E unit := fun s =>
  (Returned tt, mkState (names s) (trace s ++ [ev]) (env s)).

Definition print {E} (text : string) : M E unit := emit (Print text).

Definition of_result {E A} (r : A + PyExc) : M E A :=
  match r with
  | inl a => mret a
  | inr e => raise e
  end.

(** Reading a name: [NameError] when nothing was assigned to it yet. *)
Definition load_name {E A} (name : string) (field : Namespace -> option A)
    : M E A := fun s =>
  match field (names s) with
  | Some v => (Returned v, s)
  | None =>
      (Raised (mkExc NameError ("name '" +:+ name +:+ "' is not defined")), s)
  end.

Definition store_names {E} (f : Namespace -> Namespace) : M E unit := fun s =>
  (Returned tt, mkState (f (names s)) (trace s) (env s)).

Definition set_module_name (v : string) (n : Namespace) : Namespace :=
  mkNs (Some v) (class_name n) (mod_ n) (cls n).
Definition set_class_name (v : string) (n : Namespace) : Namespace :=
  mkNs (module_name n) (Some v) (mod_ n) (cls n).
Definition set_mod (v : PyModule) (n : Namespace) : Namespace :=
  mkNs (module_name n) (class_name n) (Some v) (cls n).
Definition set_cls (v : PyVal) (n : Namespace) : Namespace :=
  mkNs (module_name n) (class_name n) (mod_ n) (Some v).

Definition is_inl {A B} (r : A + B) : bool :=
  match r with inl _ => true | inr _ => false end.

(** [try: body except C1 as e: h1 except C2 as e: h2 ...]: the first clause
    whose class the exception is an instance of handles it; an exception
    that matches no clause, or that a handler raises, goes on up. *)
Definition try_except {E} (body : M E unit)
    (clauses : list (ExcClass * (PyExc -> M E unit))) : M E unit := fun s =>
  match body s with
  | (Returned a, s') => (Returned a, s')
  | (Raised e, s') =>
      match List.find (fun cl => isinstance e (fst cl)) clauses with
      | Some cl => snd cl e s'
      | None => (Raised e, s')
      end
  end.

(** ** The script *)

Section Script.
Context {E : Type} (host : Host E).

(** Reading a value off the host, as [sys.executable] and [sys.path] do. *)
Definition ask {A} (f : E -> A) : M E A := fun s => (Returned (f (env s)), s).

(** [importlib.import_module(name)]: the host loads the module or raises,
    and leaves its own state as loading left it. *)
Definition call_import (name : string) : M E PyModule := fun s =>
  let '(r, env') := import_module host name (env s) in
  let s' := mkState (names s) (trace s ++ [ImportCall name (is_inl r)]) env' in
  match r with
  | inl m => (Returned m, s')
  | inr e => (Raised e, s')
  end.

(** [m.attr] with a fixed attribute name.  [m] is the object the name
    [mod] refers to, so what the access does to the object shows through
    that name afterwards. *)
Definition attr_read (m : PyModule) (attr : string) : M E PyVal :=
  let r := module_getattr m attr in
  emit (AttrRead attr (is_inl r));;
  store_names (set_mod (module_touched m attr));;
  of_result r.

(** [getattr(m, attr)]. *)
Definition call_getattr (m : PyModule) (attr : string) : M E PyVal :=
  let r := module_getattr m attr in
  emit (GetattrCall attr (is_inl r));;
  store_names (set_mod (module_touched m attr));;
  of_result r.

(** [dir(m)]. *)
Definition call_dir (m : PyModule) : M E (list string) :=
  emit DirCall;; mret (dir m).

(** Lines 8 to 10: the header. *)
Definition header (target : string) : M E unit :=
  print ("--- Debugging: " +:+ target +:+ " ---");;
  exe ← ask (sys_executable host);
  print ("Python Executable: " +:+ py_str exe);;
  path ← ask (sys_path host);
  print ("Path: " +:+ repr_list host path).

(** Lines 13 to 22: the body of the [try]. *)
Definition try_body (target : string) : M E unit :=
  '(a, b) ← of_result (unpack2 (rsplit dot 1 target));
  store_names (set_module_name a);;
  store_names (set_class_name b);;
  mn ← load_name "module_name" module_name;
  print ("1. Attempting to import module: " +:+ mn);;
  mn ← load_name "module_name" module_name;
  m ← call_import mn;
  store_names (set_mod m);;
  print "   ✅ Module imported successfully!";;
  m ← load_name "mod" mod_;
  file ← attr_read m "__file__";
  print ("   📂 File location: " +:+ py_str file);;
  cn ← load_name "class_name" class_name;
  print ("2. Looking for class: " +:+ cn);;
  m ← load_name "mod" mod_;
  cn ← load_name "class_name" class_name;
  c ← call_getattr m cn;
  store_names (set_cls c);;
  print "   ✅ Class found!";;
  m ← load_name "mod" mod_;
  name ← attr_read m "__name__";
  cn ← load_name "class_name" class_name;
  print ("   👉 Proper import path: " +:+ py_str name +:+ "." +:+ cn).

(** Lines 24 to 26: [except ImportError as e]. *)
Definition on_ImportError (e : PyExc) : M E unit :=
  print ("   ❌ IMPORT ERROR: " +:+ exc_text e);;
  print "   (This means Python cannot find the file or a dependency is missing)".

(** Lines 27 to 30: [except AttributeError as e]. *)
Definition on_AttributeError (e : PyExc) : M E unit :=
  print ("   ❌ CLASS NOT FOUND: " +:+ exc_text e);;
  mn ← load_name "module_name" module_name;
  cn ← load_name "class_name" class_name;
  print ("   (The module '" +:+ mn +:+ "' loads, but class '" +:+ cn
         +:+ "' isn't in it)");;
  m ← load_name "mod" mod_;
  members ← call_dir m;
  print ("   Available contents: " +:+ repr_list host members).

(** Lines 31 to 33: [except Exception as e]. *)
Definition on_Exception (e : PyExc) : M E unit :=
  print ("   ❌ RUNTIME CRASH: " +:+ exc_text e);;
  print "   (Your code has a bug/circular import that prevents loading)".

Definition script (target : string) : M E unit :=
  header target;;
  try_except (try_body target)
    [ (ImportError, on_ImportError);
      (AttributeError, on_AttributeError);
      (Exception, on_Exception) ].

(** A run of the script as a process: nothing printed yet, no name bound.
    It ends normally ([Returned tt]) or with an exception nothing caught;
    the names die with the process. *)
Definition run (target : string) (e0 : E)
    : Outcome unit * list Event * E :=
  let '(r, s) := script target (mkState no_names [] e0) in
  (r, trace s, env s).


(** Line 6: the path the script is shipped with. *)
Definition TARGET : string :=
  "aethergraph.services.memory.facade.core.MemoryFacade".

Definition main (e0 : E) : Outcome unit * list Event * E := run TARGET e0.

End Script.

(** The lines a trace wrote to standard output. *)
Definition stdout (tr : list Event) : list string :=
  omap (fun ev => match ev with Print text => Some text | _ => None end) tr.

(** ** A small concrete host

    Enough of an interpreter to run the script on: the host state is the
    list of modules loaded so far, and a handful of module names are known
    to [import_module].  The theorems below hold for every host; this one
    serves to evaluate the script on explicit inputs. *)
Module Demo.

(** The built-in module [sys]: it has members but no [__file__]. *)
Definition sys_module : PyModule :=
  mkModule (list_to_map
    [ ("__name__", VStr "sys");
      ("executable", VStr "/usr/bin/python3");
      ("path", VObj "['/srv/docs']") ]).

(** A module loaded from a file, defining the class looked for. *)
Definition core_module : PyModule :=
  mkModule (list_to_map
    [ ("__name__", VStr "pkg.core");
      ("__file__", VStr "/srv/docs/pkg/core.py");
      ("MemoryFacade", VObj "<class 'pkg.core.MemoryFacade'>") ]).

Definition loaded_modules : Type := list string.

(** What importing each known module does: give the module, or raise.
    - [pkg.plugin] imports a package that is not installed;
    - [pkg.cycle] does [from pkg.cycle import A] on a module still loading;
    - [pkg.broken] calls a function that [os] does not have;
    - [pkg.crash] raises from its own initialisation code;
    - [pkg.quit] calls [sys.exit(1)];
    - the package of the shipped [TARGET] is not installed. *)
Definition importable : gmap string (PyModule + PyExc) :=
  list_to_map
    [ ("sys", inl sys_module);
      ("pkg.core", inl core_module);
      ("pkg.plugin",
       inr (mkExc ModuleNotFoundError "No module named 'yaml'"));
      ("pkg.cycle",
       inr (mkExc ImportError
              ("cannot import name 'A' from partially initialized module "
               +:+ "'pkg.cycle' (most likely due to a circular import)")));
      ("pkg.broken",
       inr (mkExc AttributeError "module 'os' has no attribute 'getcwdir'"));
      ("pkg.crash", inr (mkExc RuntimeError "registry not initialised"));
      ("pkg.quit", inr (mkExc SystemExit "1"));
      ("aethergraph.services.memory.facade.core",
       inr (mkExc ModuleNotFoundError "No module named 'aethergraph'")) ].

(** A module that loads is recorded as loaded, once; a failed import and an
    unknown name leave the record as it was. *)
Definition demo_import (name : string) (loaded : loaded_modules)
    : (PyModule + PyExc) * loaded_modules :=
  match importable !! name with
  | Some (inl m) =>
      (inl m, if bool_decide (name ∈ loaded) then loaded else name :: loaded)
  | Some (inr e) => (inr e, loaded)
  | None =>
      (inr (mkExc ModuleNotFoundError ("No module named '" +:+ name +:+ "'")),
       loaded)
  end.

Definition host : Host loaded_modules :=
  mkHost loaded_modules
    (fun _ => VStr "/usr/bin/python3")
    (fun _ => ["/srv/docs"])
    demo_import
    (fun s => "'" +:+ s +:+ "'").

Definition start : loaded_modules := ["sys"].

End Demo.

(** ** A host with an aliased module

    [os.path] is a name for the module [posixpath]: importing it gives a
    module whose [__name__] is not the name asked for. *)
Module Alias.

Definition posixpath_module : PyModule :=
  mkModule (list_to_map
    [ ("__name__", VStr "posixpath");
      ("__file__", VStr "/usr/lib/python3.12/posixpath.py");
      ("join", VObj "<function join at 0x7f3a5c1d2b00>") ]).

Definition alias_import (name : string) (loaded : unit)
    : (PyModule + PyExc) * unit :=
  if String.eqb name "os.path" then (inl posixpath_module, loaded)
  else
    (inr (mkExc ModuleNotFoundError ("No module named '" +:+ name +:+ "'")),
     loaded).

Definition host : Host unit :=
  mkHost unit
    (fun _ => VStr "/usr/bin/python3")
    (fun _ => [])
    alias_import
    (fun s => "'" +:+ s +:+ "'").

End Alias.

(** ** Vocabulary for the statements *)

(** The three header lines of a run that starts in host state [e0]. *)
Definition header_lines {E} (host : Host E) (target : string) (e0 : E)
    : list string :=
  [ "--- Debugging: " +:+ target +:+ " ---";
    "Python Executable: " +:+ py_str (sys_executable host e0);
    "Path: " +:+ repr_list host (sys_path host e0) ].

(** What every run that reaches the import has done by then. *)
Definition prologue {E} (host : Host E) (target m : string) (e0 : E)
    : list Event :=
  map Print (header_lines host target e0)
  ++ [Print ("1. Attempting to import module: " +:+ m)].

(** What the [except AttributeError] clause does once [mod] is bound. *)
Definition missing_report {E} (host : Host E) (m c : string) (md : PyModule)
    (text : string) : list Event :=
  [ Print ("   ❌ CLASS NOT FOUND: " +:+ text);
    Print ("   (The module '" +:+ m +:+ "' loads, but class '" +:+ c
           +:+ "' isn't in it)");
    DirCall;
    Print ("   Available contents: " +:+ repr_list host (dir md)) ].

(** Which report a run's output carries. *)
Definition reports_success (out : list string) : bool :=
  existsb (String.eqb "   ✅ Class found!") out.
Definition reports_import_error (out : list string) : bool :=
  existsb (String.prefix "   ❌ IMPORT ERROR: ") out.
Definition reports_class_not_found (out : list string) : bool :=
  existsb (String.prefix "   ❌ CLASS NOT FOUND: ") out.
Definition reports_runtime_crash (out : list string) : bool :=
  existsb (String.prefix "   ❌ RUNTIME CRASH: ") out.

Definition has_dot (s : string) : Prop := dot ∈ list_ascii_of_string s.

Definition is_import (ev : Event) : bool :=
  match ev with ImportCall _ _ => true | _ => false end.
Definition is_getattr (ev : Event) : bool :=
  match ev with GetattrCall _ _ => true | _ => false end.
(** The events that need a module object. *)
Definition uses_module (ev : Event) : bool :=
  match ev with
  | AttrRead _ _ | GetattrCall _ _ | DirCall => true
  | _ => false
  end.

(** * Properties *)

(** ** [rsplit] and unpacking *)

Example rsplit_edges :
  rsplit dot 1 ".a" = [""; "a"] /\ rsplit dot 1 "a." = ["a"; ""]
  /\ rsplit dot 1 "" = [""] /\ rsplit dot 2 "a.b.c.d" = ["a.b"; "c"; "d"]
  /\ rsplit dot 0 "a.b" = ["a.b"]
  /\ rsplit dot 1 "MemoryFacade" = ["MemoryFacade"].
Proof. repeat split; reflexivity. Qed.

Example unpack2_short :
  unpack2 ["x"]
  = inr (mkExc ValueError "not enough values to unpack (expected 2, got 1)").
Proof. reflexivity. Qed.

Lemma rsplit_rev_exhausted (rest cur : list ascii) :
  rsplit_rev dot 0 rest cur = [rev rest ++ cur].
Proof. destruct rest; reflexivity. Qed.

(** Scanning from the right with one split allowed: the scan stops at the
    first separator it meets, which is the last one of the string. *)
Lemma rsplit_rev_one (rest cur : list ascii) :
  dot ∈ rest ->
  exists suf pre,
    rest = suf ++ dot :: pre /\ (dot ∉ suf)
    /\ rsplit_rev dot 1 rest cur = [rev pre; rev suf ++ cur].
Proof.
  revert cur. induction rest as [|c rest IH]; intros cur Hin.
  - by apply elem_of_nil in Hin.
  - simpl. destruct (Ascii.eqb_spec c dot) as [->|Hne].
    + exists [], rest. rewrite rsplit_rev_exhausted, app_nil_r.
      split_and!; [done | apply not_elem_of_nil | done].
    + apply elem_of_cons in Hin as [Heq|Hin]; [congruence|].
      destruct (IH (c :: cur) Hin) as (suf & pre & -> & Hsuf & Hsplit).
      exists (c :: suf), pre. split_and!; [done | | ].
      * rewrite not_elem_of_cons. split; [congruence | done].
      * rewrite Hsplit. simpl. by rewrite <- app_assoc.
Qed.

Lemma rsplit_rev_none (n : nat) (rest cur : list ascii) :
  dot ∉ rest -> rsplit_rev dot n rest cur = [rev rest ++ cur].
Proof.
  revert cur. induction rest as [|c rest IH]; intros cur Hnot; [done|].
  apply not_elem_of_cons in Hnot as [Hne Hnot].
  destruct n as [|n]; [done|]. simpl.
  destruct (Ascii.eqb_spec c dot) as [->|_]; [done|].
  rewrite IH by done. simpl. by rewrite <- app_assoc.
Qed.

Lemma string_of_list_ascii_app (l1 l2 : list ascii) :
  string_of_list_ascii (l1 ++ l2)
  = string_of_list_ascii l1 +:+ string_of_list_ascii l2.
Proof. induction l1 as [|a l1 IH]; simpl; [done | by rewrite IH]. Qed.

(** A string without a dot comes back whole, as a list of one. *)
Lemma rsplit_no_dot (s : string) : ~ has_dot s -> rsplit dot 1 s = [s].
Proof.
  intros Hnot. unfold rsplit. rewrite rsplit_rev_none.
  - simpl. by rewrite app_nil_r, rev_involutive, string_of_list_ascii_of_string.
  - intros Hin. apply Hnot. unfold has_dot.
    by rewrite list_elem_of_In, <- in_rev, <- list_elem_of_In in Hin.
Qed.

Lemma unpack2_inr (xs : list string) (e : PyExc) :
  unpack2 xs = inr e -> exc_class e = ValueError.
Proof.
  destruct xs as [|a [|b [|c xs]]]; simpl; intros H; by simplify_eq.
Qed.

(** C6: a target with at least one dot splits into exactly two pieces, the
    text before its last dot (the module name) and the text after it (the
    class name); joined by a dot they give the target back, and the class
    name contains no dot. *)
Theorem C6_rsplit_at_last_dot (target : string) :
  has_dot target ->
  exists m c,
    rsplit dot 1 target = [m; c]
    /\ unpack2 (rsplit dot 1 target) = inl (m, c)
    /\ target = m +:+ "." +:+ c
    /\ ~ has_dot c.
Proof.
  unfold has_dot. intros Hdot.
  assert (Hrev : dot ∈ rev (list_ascii_of_string target))
    by (by rewrite list_elem_of_In, <- in_rev, <- list_elem_of_In).
  destruct (rsplit_rev_one _ [] Hrev) as (suf & pre & Hrest & Hsuf & Hsplit).
  exists (string_of_list_ascii (rev pre)), (string_of_list_ascii (rev suf)).
  assert (Hparts : rsplit dot 1 target
    = [string_of_list_ascii (rev pre); string_of_list_ascii (rev suf)]).
  { unfold rsplit. rewrite Hsplit. simpl. by rewrite app_nil_r. }
  split_and!.
  - done.
  - by rewrite Hparts.
  - rewrite <- (string_of_list_ascii_of_string target) at 1.
    rewrite <- (rev_involutive (list_ascii_of_string target)), Hrest.
    rewrite rev_app_distr. simpl. rewrite <- app_assoc.
    by rewrite string_of_list_ascii_app.
  - rewrite list_ascii_of_string_of_list_ascii.
    by rewrite list_elem_of_In, <- in_rev, <- list_elem_of_In.
Qed.

Lemma C6_witness :
  has_dot "a.b.C"
  /\ exists m c,
       rsplit dot 1 "a.b.C" = [m; c]
       /\ unpack2 (rsplit dot 1 "a.b.C") = inl (m, c)
       /\ "a.b.C" = m +:+ "." +:+ c
       /\ ~ has_dot c.
Proof.
  assert (H : has_dot "a.b.C").
  { unfold has_dot. apply (bool_decide_unpack _). vm_compute. exact I. }
  split; [exact H | exact (C6_rsplit_at_last_dot "a.b.C" H)].
Defined.

(** ** Attribute access on a module *)

Lemma getattr_bound_file (md : PyModule) (file : PyVal) :
  mod_dict md !! "__file__" = Some file ->
  module_getattr md "__file__" = inl file.
Proof. intros H. unfold module_getattr. simpl. by rewrite H. Qed.

Lemma getattr_bound_name (md : PyModule) (name : PyVal) :
  mod_dict md !! "__name__" = Some name ->
  module_getattr md "__name__" = inl name.
Proof. intros H. unfold module_getattr. simpl. by rewrite H. Qed.

Lemma getattr_unbound_file (md : PyModule) :
  mod_dict md !! "__file__" = None ->
  exists text, module_getattr md "__file__" = inr (mkExc AttributeError text).
Proof. intros H. unfold module_getattr. simpl. rewrite H. eauto. Qed.

Lemma getattr_unbound_name (md : PyModule) :
  mod_dict md !! "__name__" = None ->
  exists text,
    module_getattr md "__name__" = inr (mkExc AttributeError text)
    /\ text = "module has no attribute '__name__'".
Proof. intros H. unfold module_getattr. simpl. rewrite H. eauto. Qed.

Lemma touched_file (md : PyModule) : module_touched md "__file__" = md.
Proof. reflexivity. Qed.

Lemma touched_name (md : PyModule) : module_touched md "__name__" = md.
Proof. reflexivity. Qed.

(** Touching a module changes no entry but [__annotations__]. *)
Lemma touched_lookup (md : PyModule) (c : string) :
  mod_dict (module_touched md c) !! "__name__" = mod_dict md !! "__name__".
Proof.
  unfold module_touched.
  destruct (String.eqb_spec c "__annotations__") as [->|_]; [|done].
  destruct (mod_dict md !! "__annotations__"); [done|].
  simpl. by rewrite lookup_insert_ne.
Qed.

(** A failed access: the name is neither in the namespace nor on the type,
    the exception is an [AttributeError], the module is as it was. *)
Lemma getattr_fails (md : PyModule) (c : string) (ex : PyExc) :
  module_getattr md c = inr ex ->
  module_touched md c = md
  /\ mod_dict md !! c = None
  /\ exists text, ex = mkExc AttributeError text.
Proof.
  unfold module_getattr, module_touched.
  destruct (String.eqb c "__class__"); [done|].
  destruct (String.eqb c "__dict__"); [done|].
  destruct (mod_dict md !! c) as [v|]; [done|].
  destruct (String.eqb c "__annotations__"); [done|].
  destruct (bool_decide (c ∈ module_type_inherited)); [done|].
  intros [= <-]. eauto.
Qed.


(** ** One lemma per path through the script *)

Ltac unfold_script :=
  unfold run, script, header, try_body, try_except, on_ImportError,
    on_AttributeError, on_Exception, call_import, attr_read, call_getattr,
    call_dir, print, emit, ask, store_names, load_name, of_result, raise,
    mbind, M_bind, mret, M_ret.

Section Paths.
Context {E : Type} (host : Host E).
Implicit Types (target m c : string) (md : PyModule).

Lemma run_unsplit target e0 ex :
  unpack2 (rsplit dot 1 target) = inr ex ->
  run host target e0
  = (Returned tt,
     map Print (header_lines host target e0)
     ++ [ Print ("   ❌ RUNTIME CRASH: " +:+ exc_text ex);
          Print "   (Your code has a bug/circular import that prevents loading)" ],
     e0).
Proof.
  intros Hsplit. pose proof (unpack2_inr _ _ Hsplit) as Hcls.
  destruct ex as [k text]; simpl in Hcls; subst k.
  unfold_script. rewrite Hsplit. reflexivity.
Qed.

Lemma run_import_ImportError target m c e0 ex e1 :
  unpack2 (rsplit dot 1 target) = inl (m, c) ->
  import_module host m e0 = (inr ex, e1) ->
  isinstance ex ImportError = true ->
  run host target e0
  = (Returned tt,
     prologue host target m e0
     ++ [ ImportCall m false;
          Print ("   ❌ IMPORT ERROR: " +:+ exc_text ex);
          Print "   (This means Python cannot find the file or a dependency is missing)" ],
     e1).
Proof.
  intros Hsplit Himp Hcls. unfold_script. rewrite Hsplit. simpl.
  rewrite Himp. simpl. rewrite Hcls. reflexivity.
Qed.

(** The handler prints two lines and then reads [mod], which was never
    assigned. *)
Lemma run_import_AttributeError target m c e0 ex e1 :
  unpack2 (rsplit dot 1 target) = inl (m, c) ->
  import_module host m e0 = (inr ex, e1) ->
  isinstance ex ImportError = false ->
  isinstance ex AttributeError = true ->
  run host target e0
  = (Raised (mkExc NameError "name 'mod' is not defined"),
     prologue host target m e0
     ++ [ ImportCall m false;
          Print ("   ❌ CLASS NOT FOUND: " +:+ exc_text ex);
          Print ("   (The module '" +:+ m +:+ "' loads, but class '" +:+ c
                 +:+ "' isn't in it)") ],
     e1).
Proof.
  intros Hsplit Himp Hcls1 Hcls2. unfold_script. rewrite Hsplit. simpl.
  rewrite Himp. simpl. rewrite Hcls1, Hcls2. reflexivity.
Qed.

Lemma run_import_Exception target m c e0 ex e1 :
  unpack2 (rsplit dot 1 target) = inl (m, c) ->
  import_module host m e0 = (inr ex, e1) ->
  isinstance ex ImportError = false ->
  isinstance ex AttributeError = false ->
  isinstance ex Exception = true ->
  run host target e0
  = (Returned tt,
     prologue host target m e0
     ++ [ ImportCall m false;
          Print ("   ❌ RUNTIME CRASH: " +:+ exc_text ex);
          Print "   (Your code has a bug/circular import that prevents loading)" ],
     e1).
Proof.
  intros Hsplit Himp Hcls1 Hcls2 Hcls3. unfold_script. rewrite Hsplit. simpl.
  rewrite Himp. simpl. rewrite Hcls1, Hcls2, Hcls3. reflexivity.
Qed.

(** [SystemExit], [KeyboardInterrupt] and the like match no clause. *)
Lemma run_import_uncaught target m c e0 ex e1 :
  unpack2 (rsplit dot 1 target) = inl (m, c) ->
  import_module host m e0 = (inr ex, e1) ->
  isinstance ex ImportError = false ->
  isinstance ex AttributeError = false ->
  isinstance ex Exception = false ->
  run host target e0
  = (Raised ex, prologue host target m e0 ++ [ImportCall m false], e1).
Proof.
  intros Hsplit Himp Hcls1 Hcls2 Hcls3. unfold_script. rewrite Hsplit. simpl.
  rewrite Himp. simpl. rewrite Hcls1, Hcls2, Hcls3. reflexivity.
Qed.

Lemma run_no_file target m c e0 md e1 :
  unpack2 (rsplit dot 1 target) = inl (m, c) ->
  import_module host m e0 = (inl md, e1) ->
  mod_dict md !! "__file__" = None ->
  exists text,
    module_getattr md "__file__" = inr (mkExc AttributeError text)
    /\ run host target e0
       = (Returned tt,
          prologue host target m e0
          ++ [ ImportCall m true;
               Print "   ✅ Module imported successfully!";
               AttrRead "__file__" false ]
          ++ missing_report host m c md text,
          e1).
Proof.
  intros Hsplit Himp Hfile.
  destruct (getattr_unbound_file md Hfile) as (text & Hget).
  exists text. split; [done|].
  unfold_script. rewrite Hsplit. simpl.
  rewrite Himp. simpl. rewrite Hget, touched_file. reflexivity.
Qed.

Lemma run_no_class target m c e0 md e1 file ex :
  unpack2 (rsplit dot 1 target) = inl (m, c) ->
  import_module host m e0 = (inl md, e1) ->
  mod_dict md !! "__file__" = Some file ->
  module_getattr md c = inr ex ->
  exists text,
    ex = mkExc AttributeError text
    /\ run host target e0
       = (Returned tt,
          prologue host target m e0
          ++ [ ImportCall m true;
               Print "   ✅ Module imported successfully!";
               AttrRead "__file__" true;
               Print ("   📂 File location: " +:+ py_str file);
               Print ("2. Looking for class: " +:+ c);
               GetattrCall c false ]
          ++ missing_report host m c md text,
          e1).
Proof.
  intros Hsplit Himp Hfile Hget.
  destruct (getattr_fails md c ex Hget) as (Htouched & _ & text & ->).
  exists text. split; [done|].
  unfold_script. rewrite Hsplit. simpl.
  rewrite Himp. simpl. rewrite (getattr_bound_file md file Hfile), touched_file.
  simpl. rewrite Hget, Htouched. reflexivity.
Qed.

(** A module object stripped of its [__name__]: the class is found, and
    the last line fails. *)
Lemma run_no_name target m c e0 md e1 file v :
  unpack2 (rsplit dot 1 target) = inl (m, c) ->
  import_module host m e0 = (inl md, e1) ->
  mod_dict md !! "__file__" = Some file ->
  module_getattr md c = inl v ->
  mod_dict md !! "__name__" = None ->
  run host target e0
  = (Returned tt,
     prologue host target m e0
     ++ [ ImportCall m true;
          Print "   ✅ Module imported successfully!";
          AttrRead "__file__" true;
          Print ("   📂 File location: " +:+ py_str file);
          Print ("2. Looking for class: " +:+ c);
          GetattrCall c true;
          Print "   ✅ Class found!";
          AttrRead "__name__" false ]
     ++ missing_report host m c (module_touched md c)
          "module has no attribute '__name__'",
     e1).
Proof.
  intros Hsplit Himp Hfile Hcls Hname.
  assert (Hname' : mod_dict (module_touched md c) !! "__name__" = None)
    by (by rewrite touched_lookup).
  unfold_script. rewrite Hsplit. simpl.
  rewrite Himp. simpl. rewrite (getattr_bound_file md file Hfile), touched_file.
  simpl. rewrite Hcls. simpl.
  destruct (getattr_unbound_name _ Hname') as (text & Hget & ->).
  rewrite Hget, touched_name. reflexivity.
Qed.

Lemma run_found target m c e0 md e1 file v name :
  unpack2 (rsplit dot 1 target) = inl (m, c) ->
  import_module host m e0 = (inl md, e1) ->
  mod_dict md !! "__file__" = Some file ->
  module_getattr md c = inl v ->
  mod_dict md !! "__name__" = Some name ->
  run host target e0
  = (Returned tt,
     prologue host target m e0
     ++ [ ImportCall m true;
          Print "   ✅ Module imported successfully!";
          AttrRead "__file__" true;
          Print ("   📂 File location: " +:+ py_str file);
          Print ("2. Looking for class: " +:+ c);
          GetattrCall c true;
          Print "   ✅ Class found!";
          AttrRead "__name__" true;
          Print ("   👉 Proper import path: " +:+ py_str name +:+ "."
                 +:+ c) ],
     e1).
Proof.
  intros Hsplit Himp Hfile Hcls Hname.
  assert (Hname' : mod_dict (module_touched md c) !! "__name__" = Some name)
    by (by rewrite touched_lookup).
  unfold_script. rewrite Hsplit. simpl.
  rewrite Himp. simpl. rewrite (getattr_bound_file md file Hfile), touched_file.
  simpl. rewrite Hcls. simpl.
  rewrite (getattr_bound_name _ name Hname'), touched_name. reflexivity.
Qed.

End Paths.


(** ** What every run does *)

Ltac run_cases host target e0 :=
  let m := fresh "m" in let c := fresh "c" in let ex := fresh "ex" in
  let md := fresh "md" in let e1 := fresh "e1" in
  let Hsplit := fresh "Hsplit" in let Himp := fresh "Himp" in
  let text := fresh "text" in
  destruct (unpack2 (rsplit dot 1 target)) as [[m c]|ex] eqn:Hsplit;
  [ destruct (import_module host m e0) as [[md|ex] e1] eqn:Himp;
    [ destruct (mod_dict md !! "__file__") as [?|] eqn:?;
      [ destruct (module_getattr md c) as [?|?] eqn:?;
        [ destruct (mod_dict md !! "__name__") as [?|] eqn:?;
          [ erewrite run_found by eassumption
          | erewrite run_no_name by eassumption ]
        | edestruct (run_no_class host target m c e0 md e1) as (text & _ & ->);
          [eassumption..|] ]
      | edestruct (run_no_file host target m c e0 md e1) as (text & _ & ->);
        [eassumption..|] ]
    | destruct (isinstance ex ImportError) eqn:?;
      [ erewrite run_import_ImportError by eassumption
      | destruct (isinstance ex AttributeError) eqn:?;
        [ erewrite run_import_AttributeError by eassumption
        | destruct (isinstance ex Exception) eqn:?;
          [ erewrite run_import_Exception by eassumption
          | erewrite run_import_uncaught by eassumption ] ] ] ]
  | erewrite run_unsplit by eassumption ].

Section Runs.
Context {E : Type} (host : Host E).


Lemma run_final_env (target : string) (e0 : E) :
  (run host target e0).2
  = match unpack2 (rsplit dot 1 target) with
    | inl (m, _) => (import_module host m e0).2
    | inr _ => e0
    end.
Proof. run_cases host target e0; reflexivity. Qed.


(** C7: a run asks the host for at most one import and calls [getattr]
    for the class at most once.  The module imported is the module part of
    the split target and the attribute fetched is its class part, so the
    split comes first.  The [getattr] call, like every other use of the
    module object (the reads of [mod.__file__] and [mod.__name__], and
    [dir(mod)]), comes after an import that succeeded. *)
Theorem C7_linear_flow (target : string) (e0 : E) :
  let tr := (run host target e0).1.2 in
  length (List.filter is_import tr) <= 1
  /\ length (List.filter is_getattr tr) <= 1
  /\ (forall i m ok, tr !! i = Some (ImportCall m ok) ->
        exists c, unpack2 (rsplit dot 1 target) = inl (m, c))
  /\ (forall i c ok, tr !! i = Some (GetattrCall c ok) ->
        exists j m,
          j < i /\ tr !! j = Some (ImportCall m true)
          /\ unpack2 (rsplit dot 1 target) = inl (m, c))
  /\ (forall i ev, tr !! i = Some ev -> uses_module ev = true ->
        exists j m, j < i /\ tr !! j = Some (ImportCall m true)).
Proof.
  run_cases host target e0;
    unfold prologue, header_lines, missing_report; simpl;
    (split_and!; [lia | lia | | |]).
  all: try (intros i x ok Hi;
    do 20 (try (destruct i as [|i]; simpl in Hi; simplify_eq;
                try (by eauto);
                try (by (exists 4; eexists; split_and!; [lia|done..]))));
    done).
  all: intros i ev Hi Hev;
    do 20 (try (destruct i as [|i]; simpl in Hi; simplify_eq;
                try (by (exists 4; eexists; split_and!; [lia|done..]))));
    done.
Qed.

(** C9: a target without any dot makes the unpacking fail inside the
    [try]; the [except Exception] clause catches the [ValueError] and
    prints the same two line crash report it prints for a defect of the
    target code.  Nothing is imported, and the run ends normally. *)
Theorem C9_dotless_target_reported_as_crash (target : string) (e0 : E) :
  ~ has_dot target ->
  run host target e0
  = (Returned tt,
     map Print (header_lines host target e0)
     ++ [ Print "   ❌ RUNTIME CRASH: not enough values to unpack (expected 2, got 1)";
          Print "   (Your code has a bug/circular import that prevents loading)" ],
     e0).
Proof.
  intros Hnot.
  rewrite (run_unsplit host target e0
             (mkExc ValueError
                "not enough values to unpack (expected 2, got 1)")).
  - reflexivity.
  - by rewrite rsplit_no_dot.
Qed.

(** C4: when importing the module part raises an [ImportError] (the module
    is missing, or cannot be loaded), the run prints the import error
    report and ends normally. *)
Theorem C4_import_error_reported (target m c : string) (e0 e1 : E)
    (ex : PyExc) :
  unpack2 (rsplit dot 1 target) = inl (m, c) ->
  import_module host m e0 = (inr ex, e1) ->
  isinstance ex ImportError = true ->
  run host target e0
  = (Returned tt,
     map Print (header_lines host target e0)
     ++ [ Print ("1. Attempting to import module: " +:+ m);
          ImportCall m false;
          Print ("   ❌ IMPORT ERROR: " +:+ exc_text ex);
          Print "   (This means Python cannot find the file or a dependency is missing)" ],
     e1).
Proof.
  intros Hsplit Himp Hcls.
  erewrite run_import_ImportError by eassumption.
  unfold prologue. by rewrite <- app_assoc.
Qed.


(** X16: when loading the module raises an exception that is an
    [Exception] but neither an [ImportError] nor an [AttributeError], the
    run prints the runtime crash report, ends normally, and reports
    neither an import error nor a missing class. *)
Theorem X16_other_loading_failure_is_a_crash (target m c : string)
    (e0 e1 : E) (ex : PyExc) :
  unpack2 (rsplit dot 1 target) = inl (m, c) ->
  import_module host m e0 = (inr ex, e1) ->
  isinstance ex Exception = true ->
  isinstance ex ImportError = false ->
  isinstance ex AttributeError = false ->
  run host target e0
  = (Returned tt,
     map Print (header_lines host target e0)
     ++ [ Print ("1. Attempting to import module: " +:+ m);
          ImportCall m false;
          Print ("   ❌ RUNTIME CRASH: " +:+ exc_text ex);
          Print "   (Your code has a bug/circular import that prevents loading)" ],
     e1)
  /\ reports_runtime_crash (stdout (run host target e0).1.2) = true
  /\ reports_import_error (stdout (run host target e0).1.2) = false
  /\ reports_class_not_found (stdout (run host target e0).1.2) = false.
Proof.
  intros Hsplit Himp Hexc Himport Hattr.
  erewrite run_import_Exception by eassumption.
  unfold prologue. rewrite <- app_assoc.
  split_and!; try reflexivity.
  unfold reports_runtime_crash. simpl. by destruct (exc_text ex).
Qed.

End Runs.

(** ** The script on explicit inputs *)

Example rsplit_TARGET :
  unpack2 (rsplit dot 1 TARGET)
  = inl ("aethergraph.services.memory.facade.core", "MemoryFacade").
Proof. reflexivity. Qed.

(** The script as shipped, where [aethergraph] is not installed. *)
Example main_not_installed :
  main Demo.host Demo.start
  = (Returned tt,
     [ Print "--- Debugging: aethergraph.services.memory.facade.core.MemoryFacade ---";
       Print "Python Executable: /usr/bin/python3";
       Print "Path: ['/srv/docs']";
       Print "1. Attempting to import module: aethergraph.services.memory.facade.core";
       ImportCall "aethergraph.services.memory.facade.core" false;
       Print "   ❌ IMPORT ERROR: No module named 'aethergraph'";
       Print "   (This means Python cannot find the file or a dependency is missing)" ],
     ["sys"]).
Proof. vm_compute. reflexivity. Qed.

(** The intended use: a class that exists in a module loaded from a file. *)
Example run_class_found :
  run Demo.host "pkg.core.MemoryFacade" Demo.start
  = (Returned tt,
     [ Print "--- Debugging: pkg.core.MemoryFacade ---";
       Print "Python Executable: /usr/bin/python3";
       Print "Path: ['/srv/docs']";
       Print "1. Attempting to import module: pkg.core";
       ImportCall "pkg.core" true;
       Print "   ✅ Module imported successfully!";
       AttrRead "__file__" true;
       Print "   📂 File location: /srv/docs/pkg/core.py";
       Print "2. Looking for class: MemoryFacade";
       GetattrCall "MemoryFacade" true;
       Print "   ✅ Class found!";
       AttrRead "__name__" true;
       Print "   👉 Proper import path: pkg.core.MemoryFacade" ],
     ["pkg.core"; "sys"]).
Proof. vm_compute. reflexivity. Qed.

(** A module that calls [sys.exit] while loading: no clause catches
    [SystemExit]. *)
Example run_system_exit :
  run Demo.host "pkg.quit.A" Demo.start
  = (Raised (mkExc SystemExit "1"),
     [ Print "--- Debugging: pkg.quit.A ---";
       Print "Python Executable: /usr/bin/python3";
       Print "Path: ['/srv/docs']";
       Print "1. Attempting to import module: pkg.quit";
       ImportCall "pkg.quit" false ],
     ["sys"]).
Proof. vm_compute. reflexivity. Qed.

(** C1 does not hold on the code: for the target [sys.path] the module
    [sys] imports and [path] is one of its attributes, yet the run prints
    no success line, no file location and no import path.  [sys] is a
    built-in module without [__file__]; reading [mod.__file__] raises
    [AttributeError], and the [except AttributeError] clause reports the
    class as not found, above a member list that contains it. *)
Theorem C1_builtin_module_class_reported_missing :
  unpack2 (rsplit dot 1 "sys.path") = inl ("sys", "path")
  /\ import_module Demo.host "sys" Demo.start = (inl Demo.sys_module, Demo.start)
  /\ module_getattr Demo.sys_module "path" = inl (VObj "['/srv/docs']")
  /\ run Demo.host "sys.path" Demo.start
     = (Returned tt,
        [ Print "--- Debugging: sys.path ---";
          Print "Python Executable: /usr/bin/python3";
          Print "Path: ['/srv/docs']";
          Print "1. Attempting to import module: sys";
          ImportCall "sys" true;
          Print "   ✅ Module imported successfully!";
          AttrRead "__file__" false;
          Print "   ❌ CLASS NOT FOUND: module 'sys' has no attribute '__file__'";
          Print "   (The module 'sys' loads, but class 'path' isn't in it)";
          DirCall;
          Print "   Available contents: ['__name__', 'executable', 'path']" ],
        Demo.start)
  /\ reports_success (stdout (run Demo.host "sys.path" Demo.start).1.2) = false
  /\ reports_class_not_found
       (stdout (run Demo.host "sys.path" Demo.start).1.2) = true.
Proof. split_and!; vm_compute; reflexivity. Qed.

(** C2 does not hold on the code: [pkg.cycle] exists and raises while it
    loads, because of a circular import, which Python signals with an
    [ImportError].  The run files it under the missing-module report
    ("cannot find the file or a dependency is missing") and prints no
    runtime crash report, although the crash report's own text names
    circular imports. *)
Theorem C2_circular_import_reported_as_missing_module :
  unpack2 (rsplit dot 1 "pkg.cycle.A") = inl ("pkg.cycle", "A")
  /\ import_module Demo.host "pkg.cycle" Demo.start
     = (inr (mkExc ImportError
               "cannot import name 'A' from partially initialized module 'pkg.cycle' (most likely due to a circular import)"),
        Demo.start)
  /\ run Demo.host "pkg.cycle.A" Demo.start
     = (Returned tt,
        [ Print "--- Debugging: pkg.cycle.A ---";
          Print "Python Executable: /usr/bin/python3";
          Print "Path: ['/srv/docs']";
          Print "1. Attempting to import module: pkg.cycle";
          ImportCall "pkg.cycle" false;
          Print "   ❌ IMPORT ERROR: cannot import name 'A' from partially initialized module 'pkg.cycle' (most likely due to a circular import)";
          Print "   (This means Python cannot find the file or a dependency is missing)" ],
        Demo.start)
  /\ reports_runtime_crash
       (stdout (run Demo.host "pkg.cycle.A" Demo.start).1.2) = false
  /\ reports_import_error
       (stdout (run Demo.host "pkg.cycle.A" Demo.start).1.2) = true.
Proof. split_and!; vm_compute; reflexivity. Qed.

(** A module that imports a package that is not installed: the dependency
    is what is missing, and the import error report says so. *)
Example run_missing_dependency :
  run Demo.host "pkg.plugin.Loader" Demo.start
  = (Returned tt,
     [ Print "--- Debugging: pkg.plugin.Loader ---";
       Print "Python Executable: /usr/bin/python3";
       Print "Path: ['/srv/docs']";
       Print "1. Attempting to import module: pkg.plugin";
       ImportCall "pkg.plugin" false;
       Print "   ❌ IMPORT ERROR: No module named 'yaml'";
       Print "   (This means Python cannot find the file or a dependency is missing)" ],
     Demo.start).
Proof. vm_compute. reflexivity. Qed.


(** The class name [__class__] is bound in no module's namespace and is an
    attribute of every module. *)
Example run_type_attribute :
  stdout (run Demo.host "pkg.core.__class__" Demo.start).1.2
  = [ "--- Debugging: pkg.core.__class__ ---";
      "Python Executable: /usr/bin/python3";
      "Path: ['/srv/docs']";
      "1. Attempting to import module: pkg.core";
      "   ✅ Module imported successfully!";
      "   📂 File location: /srv/docs/pkg/core.py";
      "2. Looking for class: __class__";
      "   ✅ Class found!";
      "   👉 Proper import path: pkg.core.__class__" ].
Proof. vm_compute. reflexivity. Qed.

Lemma X16_witness :
  run Demo.host "pkg.crash.A" Demo.start
  = (Returned tt,
     map Print (header_lines Demo.host "pkg.crash.A" Demo.start)
     ++ [ Print ("1. Attempting to import module: " +:+ "pkg.crash");
          ImportCall "pkg.crash" false;
          Print ("   ❌ RUNTIME CRASH: "
                 +:+ exc_text (mkExc RuntimeError "registry not initialised"));
          Print "   (Your code has a bug/circular import that prevents loading)" ],
     Demo.start)
  /\ reports_runtime_crash
       (stdout (run Demo.host "pkg.crash.A" Demo.start).1.2) = true
  /\ reports_import_error
       (stdout (run Demo.host "pkg.crash.A" Demo.start).1.2) = false
  /\ reports_class_not_found
       (stdout (run Demo.host "pkg.crash.A" Demo.start).1.2) = false.
Proof.
  apply (X16_other_loading_failure_is_a_crash Demo.host
           "pkg.crash.A" "pkg.crash" "A" Demo.start Demo.start
           (mkExc RuntimeError "registry not initialised"));
    reflexivity.
Defined.

(** C3 does not hold on the code: loading [pkg.broken] raises an
    [AttributeError]; the [except AttributeError] clause catches it, prints
    two lines and then evaluates [dir(mod)] although [mod] was never
    assigned.  The [NameError] leaves the handler and ends the run. *)
Theorem C3_handler_raises_NameError :
  run Demo.host "pkg.broken.A" Demo.start
  = (Raised (mkExc NameError "name 'mod' is not defined"),
     [ Print "--- Debugging: pkg.broken.A ---";
       Print "Python Executable: /usr/bin/python3";
       Print "Path: ['/srv/docs']";
       Print "1. Attempting to import module: pkg.broken";
       ImportCall "pkg.broken" false;
       Print "   ❌ CLASS NOT FOUND: module 'os' has no attribute 'getcwdir'";
       Print "   (The module 'pkg.broken' loads, but class 'A' isn't in it)" ],
     Demo.start).
Proof. vm_compute. reflexivity. Qed.

Lemma C4_witness :
  run Demo.host "nope.A" Demo.start
  = (Returned tt,
     map Print (header_lines Demo.host "nope.A" Demo.start)
     ++ [ Print ("1. Attempting to import module: " +:+ "nope");
          ImportCall "nope" false;
          Print ("   ❌ IMPORT ERROR: "
                 +:+ exc_text (mkExc ModuleNotFoundError "No module named 'nope'"));
          Print "   (This means Python cannot find the file or a dependency is missing)" ],
     Demo.start).
Proof.
  apply (C4_import_error_reported Demo.host "nope.A" "nope" "A"
           Demo.start Demo.start
           (mkExc ModuleNotFoundError "No module named 'nope'"));
    reflexivity.
Defined.


Lemma C9_witness :
  run Demo.host "MemoryFacade" Demo.start
  = (Returned tt,
     map Print (header_lines Demo.host "MemoryFacade" Demo.start)
     ++ [ Print "   ❌ RUNTIME CRASH: not enough values to unpack (expected 2, got 1)";
          Print "   (Your code has a bug/circular import that prevents loading)" ],
     Demo.start).
Proof.
  apply (C9_dotless_target_reported_as_crash Demo.host "MemoryFacade"
           Demo.start).
  unfold has_dot. apply (bool_decide_unpack _). vm_compute. exact I.
Defined.

(** * Further properties *)

(** ** More on [rsplit] and the unpacking of line 13 *)

Lemma rsplit_rev_nonempty (sep : ascii) (n : nat) (rest cur : list ascii) :
  rsplit_rev sep n rest cur <> [].
Proof.
  revert n cur. induction rest as [|c rest IH]; intros n cur; [done|].
  destruct n as [|n]; [done|]. simpl.
  destruct (Ascii.eqb c sep); [|apply IH].
  intros Heq. by apply app_eq_nil in Heq as [_ ?].
Qed.

Lemma append_assoc (a b c : string) : (a +:+ b) +:+ c = a +:+ (b +:+ c).
Proof.
  induction a as [|ch a IH]; [done|].
  change (String ch ((a +:+ b) +:+ c) = String ch (a +:+ (b +:+ c))).
  by rewrite IH.
Qed.

Lemma concat_snoc (sep : string) (l : list string) (x : string) :
  l <> [] -> String.concat sep (l ++ [x]) = String.concat sep l +:+ sep +:+ x.
Proof.
  induction l as [|a l IH]; [done|]. intros _.
  destruct l as [|b l].
  - reflexivity.
  - change (String.concat sep ((a :: b :: l) ++ [x]))
      with (a +:+ sep +:+ String.concat sep ((b :: l) ++ [x])).
    rewrite IH by done.
    change (String.concat sep (a :: b :: l))
      with (a +:+ sep +:+ String.concat sep (b :: l)).
    by rewrite !append_assoc.
Qed.

Lemma rsplit_rev_join (sep : ascii) (n : nat) (rest cur : list ascii) :
  String.concat (String sep "")
    (map string_of_list_ascii (rsplit_rev sep n rest cur))
  = string_of_list_ascii (rev rest ++ cur).
Proof.
  revert n cur. induction rest as [|c rest IH]; intros n cur; [done|].
  destruct n as [|n]; [done|]. simpl.
  destruct (Ascii.eqb_spec c sep) as [->|Hne].
  - rewrite map_app. simpl. rewrite concat_snoc.
    + rewrite IH, app_nil_r, <- app_assoc.
      by rewrite !string_of_list_ascii_app.
    + intros Heq. apply map_eq_nil in Heq.
      by apply rsplit_rev_nonempty in Heq.
  - rewrite IH. by rewrite <- app_assoc.
Qed.

Lemma rsplit_rev_length (sep : ascii) (n : nat) (rest cur : list ascii) :
  1 <= length (rsplit_rev sep n rest cur) <= n + 1.
Proof.
  revert n cur. induction rest as [|c rest IH]; intros n cur; simpl; [lia|].
  destruct n as [|n]; simpl; [lia|].
  destruct (Ascii.eqb c sep).
  - rewrite length_app. simpl. specialize (IH n []). lia.
  - specialize (IH (S n) (c :: cur)). lia.
Qed.

Lemma rsplit_rev_at (suf pre cur : list ascii) :
  dot ∉ suf ->
  rsplit_rev dot 1 (suf ++ dot :: pre) cur = [rev pre; rev suf ++ cur].
Proof.
  revert cur. induction suf as [|c suf IH]; intros cur Hnot; simpl.
  - by rewrite rsplit_rev_exhausted, app_nil_r.
  - apply not_elem_of_cons in Hnot as [Hne Hnot].
    destruct (Ascii.eqb_spec c dot) as [->|_]; [done|].
    rewrite IH by done. by rewrite <- app_assoc.
Qed.

Lemma list_ascii_of_string_app (s1 s2 : string) :
  list_ascii_of_string (s1 +:+ s2)
  = list_ascii_of_string s1 ++ list_ascii_of_string s2.
Proof. induction s1 as [|a s1 IH]; simpl; [done | by rewrite IH]. Qed.

(** X1: joining the pieces of [s.rsplit(sep, n)] with the separator gives
    [s] back, whatever [n] is. *)
Theorem X1_rsplit_join (sep : ascii) (n : nat) (s : string) :
  String.concat (String sep "") (rsplit sep n s) = s.
Proof.
  unfold rsplit. rewrite rsplit_rev_join, app_nil_r, rev_involutive.
  apply string_of_list_ascii_of_string.
Qed.

(** X2: [s.rsplit(sep, n)] has at least one piece and at most [n + 1]. *)
Theorem X2_rsplit_length (sep : ascii) (n : nat) (s : string) :
  1 <= length (rsplit sep n s) <= n + 1.
Proof. unfold rsplit. rewrite length_map. apply rsplit_rev_length. Qed.

(** X3: splitting [m + "." + c] gives back [m] and [c] when [c] has no
    dot, also when [m] or [c] is empty or [m] has dots of its own. *)
Theorem X3_rsplit_of_joined (m c : string) :
  ~ has_dot c -> rsplit dot 1 (m +:+ "." +:+ c) = [m; c].
Proof.
  unfold has_dot. intros Hnot. unfold rsplit.
  rewrite list_ascii_of_string_app. simpl.
  rewrite rev_app_distr. simpl. rewrite <- app_assoc. simpl.
  rewrite rsplit_rev_at.
  - simpl. by rewrite !rev_involutive, app_nil_r,
      !string_of_list_ascii_of_string.
  - by rewrite list_elem_of_In, <- in_rev, <- list_elem_of_In.
Qed.

Lemma X3_witness : rsplit dot 1 ("a.b" +:+ "." +:+ "") = ["a.b"; ""].
Proof.
  apply (X3_rsplit_of_joined "a.b" "").
  unfold has_dot. apply (bool_decide_unpack _). vm_compute. exact I.
Defined.

(** X4: the unpacking of line 13 succeeds exactly when the target has a
    dot; when it fails, the error is always the one for a single piece. *)
Theorem X4_unpack_iff_dot (target : string) :
  ((exists m c, unpack2 (rsplit dot 1 target) = inl (m, c))
   <-> has_dot target)
  /\ ((unpack2 (rsplit dot 1 target)
       = inr (mkExc ValueError
                "not enough values to unpack (expected 2, got 1)"))
      <-> ~ has_dot target).
Proof.
  destruct (decide (has_dot target)) as [Hdot|Hnot].
  - assert (Hrev : dot ∈ rev (list_ascii_of_string target))
      by (by rewrite list_elem_of_In, <- in_rev, <- list_elem_of_In).
    destruct (rsplit_rev_one _ [] Hrev) as (suf & pre & _ & _ & Hsplit).
    unfold rsplit. rewrite Hsplit. simpl. split; split; eauto; done.
  - rewrite rsplit_no_dot by done. simpl. split; split; try done.
    intros (m & c & H). discriminate.
Qed.

(** ** Which report a run prints, and when *)



(** Every class below [ImportError] or [AttributeError] is below
    [Exception]. *)
Lemma issubclass_Exception (k : ExcClass) :
  issubclass k ImportError = true \/ issubclass k AttributeError = true ->
  issubclass k Exception = true.
Proof.
  induction k as [| | | | | | | | | | | | |name base IH];
    try (by vm_compute; intros [?|?]).
  unfold issubclass in *. simpl.
  rewrite !bool_decide_eq_true, !elem_of_cons in *.
  intros [[?|?]|[?|?]]; try done; right; apply IH; auto.
Qed.

Lemma not_Exception (ex : PyExc) :
  isinstance ex Exception = false ->
  isinstance ex ImportError = false /\ isinstance ex AttributeError = false.
Proof.
  unfold isinstance. intros Hexc.
  pose proof (issubclass_Exception (exc_class ex)) as H.
  destruct (issubclass (exc_class ex) ImportError),
    (issubclass (exc_class ex) AttributeError); try done;
    rewrite H in Hexc by auto; done.
Qed.

(** Name the text that follows a failure marker, so that the line can be
    compared with the markers. *)
Ltac open_text t :=
  lazymatch t with
  | EmptyString => fail
  | String _ _ => fail
  | _ => destruct t eqn:?
  end.

Ltac open_report_text :=
  unfold prologue, header_lines, missing_report;
  repeat match goal with
  | |- context [Print ("   ❌ IMPORT ERROR: " +:+ ?t)] => open_text t
  | |- context [Print ("   ❌ CLASS NOT FOUND: " +:+ ?t)] => open_text t
  | |- context [Print ("   ❌ RUNTIME CRASH: " +:+ ?t)] => open_text t
  end.

Ltac decompose_hyps :=
  repeat match goal with
  | H : _ /\ _ |- _ => destruct H
  | H : exists _, _ |- _ => destruct H
  | H : _ \/ _ |- _ => destruct H
  end.

(** What the lookups of [__file__] and [__name__] give, from what the
    namespace holds. *)
Ltac getattr_facts :=
  repeat match goal with
  | H : mod_dict ?md !! "__file__" = Some ?v |- _ =>
      lazymatch goal with
      | _ : module_getattr md "__file__" = _ |- _ => fail
      | _ => pose proof (getattr_bound_file md v H)
      end
  | H : mod_dict ?md !! "__file__" = None |- _ =>
      lazymatch goal with
      | _ : module_getattr md "__file__" = _ |- _ => fail
      | _ => destruct (getattr_unbound_file md H) as (? & ?)
      end
  | H : mod_dict ?md !! "__name__" = Some ?v |- _ =>
      lazymatch goal with
      | _ : module_getattr md "__name__" = _ |- _ => fail
      | _ => pose proof (getattr_bound_name md v H)
      end
  | H : mod_dict ?md !! "__name__" = None |- _ =>
      lazymatch goal with
      | _ : module_getattr md "__name__" = _ |- _ => fail
      | _ => destruct (getattr_unbound_name md H) as (? & ? & _)
      end
  end.

(** Close [flag = true <-> condition] once the run is known. *)
Ltac settle_report :=
  match goal with
  | |- ?flag = true <-> _ =>
      let Hflag := fresh "Hflag" in
      destruct flag eqn:Hflag; vm_compute in Hflag; try discriminate
  end;
  (split;
   [ first [ done | intros _; repeat eexists; eauto; fail
           | intros _; eauto 15 ]
   | first [ done
           | intros; decompose_hyps; simplify_eq; congruence ] ]).

Section Reports.
Context {E : Type} (host : Host E).


(** X6: the line "Class found!" is printed exactly when the module loads,
    has a [__file__], and looking the class name up on it gives a value
    (from the module's namespace or from the module type). *)
Theorem X6_success_iff (target : string) (e0 : E) :
  reports_success (stdout (run host target e0).1.2) = true
  <-> exists m c md e1 file v,
        unpack2 (rsplit dot 1 target) = inl (m, c)
        /\ import_module host m e0 = (inl md, e1)
        /\ module_getattr md "__file__" = inl file
        /\ module_getattr md c = inl v.
Proof.
  run_cases host target e0; getattr_facts; open_report_text; settle_report.
Qed.




(** X10: no run prints two different failure reports, and none prints
    "Class found!" together with an import error or a runtime crash. *)
Theorem X10_reports_exclusive (target : string) (e0 : E) :
  let out := stdout (run host target e0).1.2 in
  reports_import_error out && reports_class_not_found out = false
  /\ reports_import_error out && reports_runtime_crash out = false
  /\ reports_class_not_found out && reports_runtime_crash out = false
  /\ reports_success out && reports_import_error out = false
  /\ reports_success out && reports_runtime_crash out = false.
Proof.
  run_cases host target e0; open_report_text; vm_compute; done.
Qed.


(** X12: an exception of the import that is no [Exception] ([SystemExit],
    [KeyboardInterrupt]) is caught by no clause: it ends the run as it is,
    and nothing is printed after the line announcing the import. *)
Theorem X12_base_exception_propagates (target m c : string) (e0 e1 : E)
    (ex : PyExc) :
  unpack2 (rsplit dot 1 target) = inl (m, c) ->
  import_module host m e0 = (inr ex, e1) ->
  isinstance ex Exception = false ->
  run host target e0
  = (Raised ex,
     map Print (header_lines host target e0)
     ++ [ Print ("1. Attempting to import module: " +:+ m);
          ImportCall m false ],
     e1).
Proof.
  intros Hsplit Himp Hexc. destruct (not_Exception ex Hexc) as [Hi Ha].
  erewrite run_import_uncaught by eassumption.
  unfold prologue. by rewrite <- app_assoc.
Qed.

(** X13: the import calls of a run are exactly one call for the module
    part of the target when the target splits, and none when it does not;
    the call is recorded as successful exactly when the host returned a
    module. *)
Theorem X13_import_calls (target : string) (e0 : E) :
  List.filter is_import (run host target e0).1.2
  = match unpack2 (rsplit dot 1 target) with
    | inl (m, _) => [ImportCall m (is_inl (import_module host m e0).1)]
    | inr _ => []
    end.
Proof. run_cases host target e0; reflexivity. Qed.


(** X15: a run that ends normally has printed at least one of the four
    reports. *)
Theorem X15_normal_end_has_report (target : string) (e0 : E) :
  (run host target e0).1.1 = Returned tt ->
  let out := stdout (run host target e0).1.2 in
  reports_success out || reports_import_error out
  || reports_class_not_found out || reports_runtime_crash out = true.
Proof.
  run_cases host target e0; open_report_text; vm_compute; done.
Qed.

End Reports.

(** ** The further properties on explicit inputs *)


(** The path printed as proper is not the path that was asked for. *)
Example run_aliased_module :
  stdout (run Alias.host "os.path.join" tt).1.2
  = [ "--- Debugging: os.path.join ---";
      "Python Executable: /usr/bin/python3";
      "Path: []";
      "1. Attempting to import module: os.path";
      "   ✅ Module imported successfully!";
      "   📂 File location: /usr/lib/python3.12/posixpath.py";
      "2. Looking for class: join";
      "   ✅ Class found!";
      "   👉 Proper import path: posixpath.join" ].
Proof. vm_compute. reflexivity. Qed.

Lemma X12_witness :
  run Demo.host "pkg.quit.A" Demo.start
  = (Raised (mkExc SystemExit "1"),
     map Print (header_lines Demo.host "pkg.quit.A" Demo.start)
     ++ [ Print ("1. Attempting to import module: " +:+ "pkg.quit");
          ImportCall "pkg.quit" false ],
     Demo.start).
Proof.
  apply (X12_base_exception_propagates Demo.host "pkg.quit.A" "pkg.quit" "A"
           Demo.start Demo.start (mkExc SystemExit "1"));
    reflexivity.
Defined.


Lemma X15_witness :
  let out := stdout (run Demo.host "nope.A" Demo.start).1.2 in
  reports_success out || reports_import_error out
  || reports_class_not_found out || reports_runtime_crash out = true.
Proof.
  apply (X15_normal_end_has_report Demo.host "nope.A" Demo.start).
  vm_compute. reflexivity.
Defined.
